(** * kcm dashboards: threshold classification and the rolling sensor window

    A shallow embedding of the callback logic of the dashboards under
    [kcm_dashboard/]: [test2.py], [test3.py], [so_2_monitoring_dashboard.py]
    and [dashapp.py].  Layout trees, figures and the PDF template are left
    out; what is kept is what the callbacks compute from the process-wide
    table [df] and the process-wide dictionary [sensor_limits].

    Conventions.
    - A pandas frame is the list of its rows, oldest first.
    - The module globals [df] and [sensor_limits] are passed explicitly; a
      callback that rebinds or mutates one returns the new value.
    - An operation that raises returns [inl e]; one that returns [v] gives
      [inr v].
    - In [test2.py] and [test3.py] the [SO2] column and the limits are Python
      integers, modelled as [Z].  The columns of the two other dashboards are
      [float64], modelled by the kernel's binary64 floats. *)

From Stdlib Require Import ZArith Lia Floats.
From stdpp Require Import base strings list gmap pretty sorting.

Open Scope string_scope.
Open Scope Z_scope.

(** ** Exceptions *)

Inductive exn : Set :=
| IndexError   (* [.iloc[-1]] on a frame or column without rows *)
| KeyError.    (* subscript of a dictionary by a key it does not hold *)

Definition result (A : Type) : Type := exn + A.

Definition raise {A} (e : exn) : result A := inl e.
Definition ret {A} (a : A) : result A := inr a.
Definition bind {A B} (m : result A) (k : A → result B) : result B :=
  match m with
  | inl e => inl e
  | inr a => k a
  end.

Notation "'do' x <- m ; k" := (bind m (fun x => k))
  (at level 10, x name, m at level 100, k at level 200).

(** ** The fragment of pandas and of Python the callbacks use *)

Module Pandas.

(** [frame.empty] *)
Definition empty {A} (frame : list A) : bool :=
  match frame with
  | [] => true
  | _ :: _ => false
  end.

(** [frame.iloc[-1]]: the last row, [IndexError] when there is none. *)
Definition iloc_last {A} (frame : list A) : result A :=
  match last frame with
  | Some r => ret r
  | None => raise IndexError
  end.

(** [frame.iloc[-k:]] for a literal [k]: the last [k] rows, the whole frame
    when it has fewer.  [-0] is [0], so [frame.iloc[-0:]] is the whole
    frame. *)
Definition iloc_tail {A} (k : nat) (frame : list A) : list A :=
  match k with
  | O => frame
  | S _ => drop (length frame - k) frame
  end.

(** [pd.concat([frame, new_row], ignore_index=True)] with a one-row
    [new_row] *)
Definition concat {A} (frame : list A) (new_row : A) : list A :=
  frame ++ [new_row].

End Pandas.

(** Truth value of a click count: [None] before the first click, an integer
    afterwards; [None] and [0] are falsy. *)
Definition truthy (n : option Z) : bool :=
  match n with
  | None => false
  | Some k => negb (k =? 0)
  end.

(** ** Data shared by [test2.py] and [test3.py] *)

(** A row of [df]: columns ["Time"] (a point on a clock, in the unit each
    frame fixes) and ["SO2"]. *)
Record Row : Set := mkRow { Time : Z; SO2 : Z }.

(** The inner dictionary [{"lsl": _, "lcl": _, "ucl": _, "usl": _}]; it
    always carries exactly these four keys.  The values are the numbers of
    the four [NumericInput] fields, integers like the defaults. *)
Record Limits : Set := mkLimits { lsl : Z; lcl : Z; ucl : Z; usl : Z }.

(** [sensor_limits = {"SO2": {"lsl": 300, "usl": 800, "lcl": 400, "ucl": 700}}] *)
Definition sensor_limits : gmap string Limits :=
  {[ "SO2" := {| lsl := 300; usl := 800; lcl := 400; ucl := 700 |} ]}.

(** [d[key]] *)
Definition getitem (d : gmap string Limits) (key : string) : result Limits :=
  match d !! key with
  | Some v => ret v
  | None => raise KeyError
  end.

(** The three outputs of [run_ai_model]: status text, indicator colour,
    indicator value. *)
Definition Prediction : Type := string * string * bool.

(** The three verdicts, and what is returned when no verdict is made. *)
Definition DANGER : Prediction := ("DANGER", "red", true).
Definition WARNING : Prediction := ("WARNING", "orange", true).
Definition SAFE : Prediction := ("SAFE", "green", true).
Definition NO_PREDICTION : Prediction := ("", "green", false).

(** What the [if]/[elif]/[else] chain of [run_ai_model] answers for a latest
    value and the set stored under ["SO2"]; the callbacks below spell the
    chain out, the proofs go through this reading of it. *)
Definition verdict (latest_value : Z) (so2 : Limits) : Prediction :=
  if latest_value >? usl so2 then DANGER
  else if latest_value >? ucl so2 then WARNING
  else SAFE.

(** [update_settings], the same text in both files: the store after the call
    and the four echoed outputs. *)
Definition update_settings (n : option Z) (lsl lcl ucl usl : Z)
    (limits : gmap string Limits) : gmap string Limits * (Z * Z * Z * Z) :=
  let limits' :=
    if truthy n
    then <["SO2" := {| lsl := lsl; lcl := lcl; ucl := ucl; usl := usl |}]> limits
    else limits in
  (limits', (lsl, lcl, ucl, usl)).

(** [sensor_settings_tab], the same text in both files, as far as the
    [value] of the four [NumericInput]s, in the order LSL, LCL, UCL, USL; each
    is read from the store by its own pair of subscripts. *)
Definition sensor_settings_tab (limits : gmap string Limits)
  : result (Z * Z * Z * Z) :=
  do so2 <- getitem limits "SO2"; let v_lsl := lsl so2 in
  do so2 <- getitem limits "SO2"; let v_lcl := lcl so2 in
  do so2 <- getitem limits "SO2"; let v_ucl := ucl so2 in
  do so2 <- getitem limits "SO2"; let v_usl := usl so2 in
  ret (v_lsl, v_lcl, v_ucl, v_usl).

(** What a tab shows, as far as it depends on the globals: the four values of
    the settings form, and the two columns plotted by the history chart. *)
Inductive TabContent : Set :=
| SettingsCard (values : Z * Z * Z * Z)
| LiveCard
| HistoryCard (x y : list Z).

(** [history_tab]: the trace is [x=df["Time"], y=df["SO2"]]. *)
Definition history_tab (df : list Row) : TabContent :=
  HistoryCard (Time <$> df) (SO2 <$> df).

(** [switch_tabs], the same text in both files; a value that is none of the
    three tabs falls through to [None]. *)
Definition switch_tabs (tab : string) (df : list Row)
    (limits : gmap string Limits) : result (option TabContent) :=
  if decide (tab = "settings") then
    do values <- sensor_settings_tab limits;
    ret (Some (SettingsCard values))
  else if decide (tab = "live") then ret (Some LiveCard)
  else if decide (tab = "history") then ret (Some (history_tab df))
  else ret None.

Module Test2.

(** [df]: a hundred rows, one a minute, [SO2 = 500 + i % 100]. *)
Definition df : list Row :=
  (fun i : nat => {| Time := Z.of_nat i; SO2 := 500 + Z.of_nat i mod 100 |})
    <$> seq 0 100.

Definition run_ai_model (n : option Z) (df : list Row)
    (limits : gmap string Limits) : result Prediction :=
  if truthy n then
    do latest_value <- Pandas.iloc_last (SO2 <$> df);
    do so2 <- getitem limits "SO2";
    if latest_value >? usl so2 then ret ("DANGER", "red", true)
    else
      do so2 <- getitem limits "SO2";
      if latest_value >? ucl so2 then ret ("WARNING", "orange", true)
      else ret ("SAFE", "green", true)
  else ret ("", "green", false).

(** [export_pdf], as far as the count printed under "Readings above USL":
    [alerts = len(df[df["SO2"] > sensor_limits["SO2"]["usl"]])].  Without a
    click the callback falls through and returns [None]. *)
Definition export_pdf (n : option Z) (df : list Row)
    (limits : gmap string Limits) : result (option nat) :=
  if truthy n then
    do so2 <- getitem limits "SO2";
    let alerts := length (filter (fun r => SO2 r > usl so2) df) in
    ret (Some alerts)
  else ret None.

(** The numbers [export_pdf] writes into the document: the four limits, the
    [min] and [max] rows of [df["SO2"].describe()] ([None] where pandas has
    NaN, on a column without values) and [alerts].  The mean and the
    two-decimal formatting are left out. *)
Record Report : Set := mkReport {
  report_lsl : Z; report_lcl : Z; report_ucl : Z; report_usl : Z;
  report_min : option Z; report_max : option Z;
  report_alerts : nat
}.

(** [min] and [max] of a column *)
Definition column_min (col : list Z) : option Z :=
  match col with
  | [] => None
  | v :: vs => Some (foldl Z.min v vs)
  end.

Definition column_max (col : list Z) : option Z :=
  match col with
  | [] => None
  | v :: vs => Some (foldl Z.max v vs)
  end.

(** [export_pdf] with the document as a [Report]: [describe()] first, then
    [alerts], then the subscripts of the template in the order they are
    written. *)
Definition export_pdf_report (n : option Z) (df : list Row)
    (limits : gmap string Limits) : result (option Report) :=
  if truthy n then
    let summary_min := column_min (SO2 <$> df) in
    let summary_max := column_max (SO2 <$> df) in
    do so2 <- getitem limits "SO2";
    let alerts := length (filter (fun r => SO2 r > usl so2) df) in
    do l1 <- getitem limits "SO2";
    do l2 <- getitem limits "SO2";
    do l3 <- getitem limits "SO2";
    do l4 <- getitem limits "SO2";
    ret (Some {| report_lsl := lsl l1; report_lcl := lcl l2;
                 report_ucl := ucl l3; report_usl := usl l4;
                 report_min := summary_min; report_max := summary_max;
                 report_alerts := alerts |})
  else ret None.

End Test2.

Module Test3.

(** [df] at start-up: a hundred rows a minute apart from [start_time], with
    [draw i] the [random.randint(-50, 50)] of row [i].  Time is counted in
    microseconds, the resolution of [datetime]. *)
Definition df (start_time : Z) (draw : nat -> Z) : list Row :=
  (fun i : nat => {| Time := start_time + 60000000 * Z.of_nat i;
                     SO2 := 500 + draw i |})
    <$> seq 0 100.

Definition run_ai_model (n : Z) (df : list Row)
    (limits : gmap string Limits) : result Prediction :=
  if negb (Pandas.empty df) then
    do latest_value <- Pandas.iloc_last (SO2 <$> df);
    do so2 <- getitem limits "SO2";
    if latest_value >? usl so2 then ret ("DANGER", "red", true)
    else
      do so2 <- getitem limits "SO2";
      if latest_value >? ucl so2 then ret ("WARNING", "orange", true)
      else ret ("SAFE", "green", true)
  else ret ("", "green", false).

(** The rebinding of [df] in [update_live_chart], with the literal [100]
    taken as the parameter [N]. *)
Definition append_row (N : nat) (df : list Row) (new_row : Row) : list Row :=
  Pandas.iloc_tail N (Pandas.concat df new_row).

(** [update_live_chart]: [new_time] is the clock, [rnd] the draw of
    [random.randint(-100, 150)], here any integer.  The result is the new
    [df]; the figure drawn from it is left out. *)
Definition update_live_chart (new_time rnd : Z) (df : list Row) : list Row :=
  let new_so2 := 500 + rnd in
  append_row 100 df {| Time := new_time; SO2 := new_so2 |}.

(** [f"{latest:.1f} ppm"] on an integer *)
Definition format_ppm (latest : Z) : string :=
  pretty latest +:+ ".0 ppm".

Definition update_current_so2 (n : Z) (df : list Row) : result string :=
  if negb (Pandas.empty df) then
    do latest <- Pandas.iloc_last (SO2 <$> df);
    ret (format_ppm latest)
  else ret "N/A".

End Test3.

(** ** [so_2_monitoring_dashboard.py] *)

Module So2Dashboard.

Record Row : Set := mkRow { timestamp : Z; SO2_ppm : float; zone : string }.

(** [update_dashboard], as far as its fifth output [status]: the last row
    is read first, the [if]/[elif]/[else] chain on it comes after the
    figures. *)
Definition update_dashboard (df : list Row) : result string :=
  do latest <- Pandas.iloc_last df;
  let latest_reading := SO2_ppm latest in
  if (latest_reading <? 5)%float then ret "Safe"
  else if (latest_reading <? 10)%float then ret "Warning"
  else ret "Danger".

(** The [timestamps] of [generate_dummy_data], in minutes: ten minutes apart,
    built backwards from [now] and then reversed. *)
Definition timestamps (now : Z) : list Z :=
  reverse ((fun i : nat => now - 10 * Z.of_nat i) <$> seq 0 144).

(** [generate_dummy_data]: [so2 i] and [zones i] are what the two random
    columns hold in row [i]. *)
Definition generate_dummy_data (now : Z) (so2 : nat -> float)
    (zones : nat -> string) : list Row :=
  zip_with (fun ts i => {| timestamp := ts; SO2_ppm := so2 i; zone := zones i |})
           (timestamps now) (seq 0 144).

(** [df['timestamp'].max()] *)
Definition timestamp_max (df : list Row) : option Z :=
  match timestamp <$> df with
  | [] => None
  | t :: ts => Some (foldl Z.max t ts)
  end.

(** [recent_df] of [update_dashboard]:
    [df[df['timestamp'] > df['timestamp'].max() - pd.Timedelta("1 day")]];
    a day is 1440 minutes. *)
Definition recent_df (df : list Row) : list Row :=
  match timestamp_max df with
  | Some latest => filter (fun r => timestamp r > latest - 1440) df
  | None => []
  end.

End So2Dashboard.

(** ** [dashapp.py] *)

Module DashApp.

Record Row : Set :=
  mkRow { SO2 : float; CO2 : float; CO : float; H2S : float; O2 : float }.

(** [a > b] on floats *)
Definition gtb (a b : float) : bool := (b <? a)%float.

(** [mock_ai_classification]: [risk] is assigned up to three times. *)
Definition mock_ai_classification (row : Row) : string :=
  let risk := "Safe" in
  let risk := if gtb (SO2 row) 5 || gtb (H2S row) 8 then "Warning" else risk in
  let risk := if gtb (SO2 row) 10 || gtb (H2S row) 15 then "Danger" else risk in
  risk.

(** The rule the overwrite-style code is compared with: most severe first,
    first match wins. *)
Definition first_match_classification (row : Row) : string :=
  if gtb (SO2 row) 10 || gtb (H2S row) 15 then "Danger"
  else if gtb (SO2 row) 5 || gtb (H2S row) 8 then "Warning"
  else "Safe".

(** What [render_tabs] shows: a banner text, or the live cards with the
    latest [SO2] (shown to two decimals) and the risk label. *)
Inductive Content : Set :=
| Banner (text : string)
| Live (so2 : float) (ai_status : string).

Definition render_tabs (tab : string) (df : list Row) : result (option Content) :=
  if decide (tab = "tab1") then ret (Some (Banner "Sensor Settings Coming Soon"))
  else if decide (tab = "tab2") then
    do latest <- Pandas.iloc_last df;
    let ai_status := mock_ai_classification latest in
    ret (Some (Live (SO2 latest) ai_status))
  else if decide (tab = "tab3") then
    ret (Some (Banner "Historical Analysis Coming Soon"))
  else ret None.

End DashApp.

(** ** Risk levels *)

(** The three labels, ordered [Safe < Warning < Danger]. *)
Inductive RiskLevel : Set := Safe | Warning | Danger.

Definition rank (l : RiskLevel) : nat :=
  match l with
  | Safe => 0
  | Warning => 1
  | Danger => 2
  end.

Definition risk_le (a b : RiskLevel) : Prop := (rank a <= rank b)%nat.

(** The label a status text stands for; the empty status of
    [run_ai_model] stands for none. *)
Definition risk_of_status (status : string) : option RiskLevel :=
  if decide (status = "SAFE") then Some Safe
  else if decide (status = "WARNING") then Some Warning
  else if decide (status = "DANGER") then Some Danger
  else if decide (status = "Safe") then Some Safe
  else if decide (status = "Warning") then Some Warning
  else if decide (status = "Danger") then Some Danger
  else None.

Definition status (p : Prediction) : string := p.1.1.

(** ** The ordering invariant and the timer *)

(** [lsl <= lcl <= ucl <= usl] *)
Definition ordered (l : Limits) : Prop :=
  lsl l <= lcl l /\ lcl l <= ucl l /\ ucl l <= usl l.

#[global] Instance ordered_dec (l : Limits) : Decision (ordered l).
Proof. unfold ordered. apply _. Defined.

(** The store holds an ordered set under every key. *)
Definition store_ordered (limits : gmap string Limits) : Prop :=
  forall key l, limits !! key = Some l -> ordered l.

(** A tick of [dcc.Interval]: the clock and the random draw that
    [update_live_chart] reads. *)
Definition Tick : Type := Z * Z.

Definition row_of_tick (t : Tick) : Row := {| Time := t.1; SO2 := 500 + t.2 |}.

(** [update_live_chart] fired once per tick, in order. *)
Definition run_interval (ticks : list Tick) (df : list Row) : list Row :=
  foldl (fun d t => Test3.update_live_chart t.1 t.2 d) df ticks.

(** [append_row N] once per reading, in order. *)
Definition appends (N : nat) (readings : list Row) (df : list Row) : list Row :=
  foldl (Test3.append_row N) df readings.

(** ** The callbacks as events *)

(** One submission of the settings form: the click count and the four
    values. *)
Record Submission : Set := mkSubmission { clicks : option Z; form : Limits }.

(** The store after [update_settings] ran on a submission. *)
Definition submit (limits : gmap string Limits) (s : Submission)
  : gmap string Limits :=
  (update_settings (clicks s) (lsl (form s)) (lcl (form s)) (ucl (form s))
     (usl (form s)) limits).1.

(** The two globals of [test3.py]. *)
Record State : Type := mkState { frame : list Row; stored : gmap string Limits }.

(** What changes them: the interval firing [update_live_chart], and
    [update_settings]. *)
Inductive Event : Type :=
| Fire (t : Tick)
| Submit (s : Submission).

Definition step (s : State) (e : Event) : State :=
  match e with
  | Fire t => {| frame := Test3.update_live_chart t.1 t.2 (frame s);
                 stored := stored s |}
  | Submit f => {| frame := frame s; stored := submit (stored s) f |}
  end.

Definition run (events : list Event) (s : State) : State := foldl step s events.

(** The ticks and the submissions among the events, in order. *)
Definition ticks_of (events : list Event) : list Tick :=
  omap (fun e => match e with Fire t => Some t | Submit _ => None end) events.

Definition submissions_of (events : list Event) : list Submission :=
  omap (fun e => match e with Submit f => Some f | Fire _ => None end) events.

(** The values of the last submission that was a click. *)
Definition last_click (subs : list Submission) : option Limits :=
  form <$> last (filter (fun s => truthy (clicks s) = true) subs).

(** * Properties *)

(** ** The result monad *)

Lemma bind_ret {A B} (a : A) (k : A -> result B) : bind (ret a) k = k a.
Proof. reflexivity. Qed.

Lemma bind_raise {A B} (e : exn) (k : A -> result B) : bind (raise e) k = raise e.
Proof. reflexivity. Qed.

Lemma getitem_Some limits key l : limits !! key = Some l -> getitem limits key = ret l.
Proof. intros H. unfold getitem. now rewrite H. Qed.

Lemma getitem_None limits key : limits !! key = None -> getitem limits key = raise KeyError.
Proof. intros H. unfold getitem. now rewrite H. Qed.

(** ** Slices *)

Section Slices.
Context {A : Type}.
Implicit Types (l rs : list A) (k : nat).

Lemma iloc_last_snoc l x : Pandas.iloc_last (l ++ [x]) = ret x.
Proof. unfold Pandas.iloc_last. now rewrite last_snoc. Qed.

Lemma iloc_last_nil : Pandas.iloc_last (@nil A) = raise IndexError.
Proof. reflexivity. Qed.

Lemma iloc_last_Some l x : last l = Some x -> Pandas.iloc_last l = ret x.
Proof. intros H. unfold Pandas.iloc_last. now rewrite H. Qed.

Lemma empty_false_last l : Pandas.empty l = false -> exists x, last l = Some x.
Proof.
  destruct l as [|a l] using rev_ind; [discriminate|].
  intros _. exists a. apply last_snoc.
Qed.

Lemma iloc_tail_short k l : (length l <= k)%nat -> Pandas.iloc_tail k l = l.
Proof.
  intros H. destruct k as [|k]; [reflexivity|]. unfold Pandas.iloc_tail.
  replace (length l - S k)%nat with 0%nat by lia. reflexivity.
Qed.

Lemma iloc_tail_long k l :
  (0 < k <= length l)%nat -> Pandas.iloc_tail k l = drop (length l - k) l.
Proof. intros [Hk _]. destruct k; [lia | reflexivity]. Qed.

Lemma iloc_tail_length k l :
  (0 < k)%nat -> length (Pandas.iloc_tail k l) = Nat.min k (length l).
Proof.
  intros Hk. destruct k as [|k]; [lia|]. unfold Pandas.iloc_tail.
  rewrite length_drop. lia.
Qed.

(** Cutting before more rows arrive does not change the final cut. *)
Lemma iloc_tail_app k l rs :
  Pandas.iloc_tail k (Pandas.iloc_tail k l ++ rs) = Pandas.iloc_tail k (l ++ rs).
Proof.
  destruct k as [|k]; [reflexivity|].
  destruct (decide (length l <= S k)%nat) as [Hle|Hgt].
  - now rewrite (iloc_tail_short (S k) l Hle).
  - unfold Pandas.iloc_tail. rewrite !length_app, length_drop.
    set (d := (length l - S k)%nat).
    replace (length l - d + length rs - S k)%nat with (length rs) by lia.
    replace (length l + length rs - S k)%nat with (d + length rs)%nat by lia.
    rewrite <- drop_drop. f_equal.
    rewrite drop_app_le by lia. reflexivity.
Qed.

End Slices.

(** ** The rolling window *)

Lemma appends_cons N r rs df :
  appends N (r :: rs) df = appends N rs (Test3.append_row N df r).
Proof. reflexivity. Qed.

(** After at least one append the window is the cut of everything seen. *)
Lemma appends_tail N rs df :
  rs <> [] -> appends N rs df = Pandas.iloc_tail N (df ++ rs).
Proof.
  revert df. induction rs as [|r rs IH]; intros df Hne; [congruence|].
  rewrite appends_cons. destruct rs as [|r' rs].
  - reflexivity.
  - rewrite IH by discriminate.
    unfold Test3.append_row, Pandas.concat.
    rewrite iloc_tail_app, <- app_assoc. reflexivity.
Qed.

(** The same from a window that is within capacity, appends or not. *)
Lemma appends_within N rs df :
  (length df <= N)%nat -> appends N rs df = Pandas.iloc_tail N (df ++ rs).
Proof.
  intros Hdf. destruct rs as [|r rs].
  - rewrite app_nil_r, iloc_tail_short by lia. reflexivity.
  - apply appends_tail. discriminate.
Qed.

Lemma append_row_length N df r :
  (0 < N)%nat -> (length (Test3.append_row N df r) <= N)%nat.
Proof.
  intros HN. unfold Test3.append_row. rewrite iloc_tail_length by lia. lia.
Qed.

Lemma run_interval_appends ticks df :
  run_interval ticks df = appends 100 (row_of_tick <$> ticks) df.
Proof.
  revert df. induction ticks as [|t ticks IH]; intros df; [reflexivity|].
  cbn [run_interval foldl fmap list_fmap]. rewrite appends_cons. apply IH.
Qed.

(** One tick is enough to bring any frame within the hundred rows. *)
Lemma run_interval_length t ticks df :
  (length (run_interval (t :: ticks) df) <= 100)%nat.
Proof.
  rewrite run_interval_appends, appends_tail by discriminate.
  rewrite iloc_tail_length by lia. lia.
Qed.

(** When at least [N] readings were appended, nothing older survives. *)
Lemma iloc_tail_app_r {A} k (l rs : list A) :
  (0 < k <= length rs)%nat ->
  Pandas.iloc_tail k (l ++ rs) = drop (length rs - k) rs.
Proof.
  intros Hk. rewrite iloc_tail_long by (rewrite length_app; lia).
  rewrite length_app.
  replace (length l + length rs - k)%nat with (length l + (length rs - k))%nat by lia.
  apply drop_app_add'. reflexivity.
Qed.

(** ** Classification *)

Lemma iloc_last_column (df : list Row) r :
  last df = Some r -> Pandas.iloc_last (SO2 <$> df) = ret (SO2 r).
Proof. intros H. apply iloc_last_Some. now rewrite fmap_last, H. Qed.

Lemma last_not_empty {A} (l : list A) x : last l = Some x -> Pandas.empty l = false.
Proof. destruct l; [discriminate | reflexivity]. Qed.

Lemma test2_run_ai_model_eq n df r limits so2 :
  truthy n = true -> last df = Some r -> limits !! "SO2" = Some so2 ->
  Test2.run_ai_model n df limits = ret (verdict (SO2 r) so2).
Proof.
  intros Hn Hr Hl. unfold Test2.run_ai_model, verdict.
  rewrite Hn, (iloc_last_column _ _ Hr), bind_ret.
  rewrite (getitem_Some _ _ _ Hl), bind_ret.
  destruct (SO2 r >? usl so2); [reflexivity|].
  rewrite bind_ret. now destruct (SO2 r >? ucl so2).
Qed.

Lemma test3_run_ai_model_eq n df r limits so2 :
  last df = Some r -> limits !! "SO2" = Some so2 ->
  Test3.run_ai_model n df limits = ret (verdict (SO2 r) so2).
Proof.
  intros Hr Hl. unfold Test3.run_ai_model, verdict.
  rewrite (last_not_empty _ _ Hr), (iloc_last_column _ _ Hr). cbn [negb].
  rewrite bind_ret, (getitem_Some _ _ _ Hl), bind_ret.
  destruct (SO2 r >? usl so2); [reflexivity|].
  rewrite bind_ret. now destruct (SO2 r >? ucl so2).
Qed.

Lemma gtb_gt a b : (a >? b) = true <-> a > b.
Proof. rewrite Z.gtb_ltb, Z.ltb_lt. lia. Qed.

Lemma gtb_le a b : (a >? b) = false <-> a <= b.
Proof. rewrite Z.gtb_ltb, Z.ltb_ge. lia. Qed.

(** C1.  With a reading in the frame and limits stored under ["SO2"],
    [run_ai_model] (after a click in [test2.py], on every tick in
    [test3.py]) answers from the latest value alone, most severe check
    first: DANGER when it is above [usl]; otherwise WARNING when it is above
    [ucl]; otherwise SAFE.  Replacing the stored set by one with the same
    [ucl] and [usl] changes nothing, whatever its [lsl] and [lcl]. *)
Theorem classify_most_severe_first (n2 : option Z) (n3 : Z) (df : list Row)
    (r : Row) (limits : gmap string Limits) (so2 : Limits) :
  truthy n2 = true -> last df = Some r -> limits !! "SO2" = Some so2 ->
  Test2.run_ai_model n2 df limits = Test3.run_ai_model n3 df limits /\
  (SO2 r > usl so2 -> Test3.run_ai_model n3 df limits = ret DANGER) /\
  (SO2 r <= usl so2 -> SO2 r > ucl so2 ->
     Test3.run_ai_model n3 df limits = ret WARNING) /\
  (SO2 r <= usl so2 -> SO2 r <= ucl so2 ->
     Test3.run_ai_model n3 df limits = ret SAFE) /\
  (forall so2', ucl so2' = ucl so2 -> usl so2' = usl so2 ->
     Test3.run_ai_model n3 df (<["SO2" := so2']> limits)
     = Test3.run_ai_model n3 df limits).
Proof.
  intros Hn Hr Hl.
  rewrite (test2_run_ai_model_eq _ _ _ _ _ Hn Hr Hl).
  rewrite (test3_run_ai_model_eq n3 _ _ _ _ Hr Hl).
  split; [reflexivity|]. repeat split; unfold verdict.
  - intros H. apply gtb_gt in H. now rewrite H.
  - intros H1 H2. apply gtb_le in H1. apply gtb_gt in H2. now rewrite H1, H2.
  - intros H1 H2. apply gtb_le in H1, H2. now rewrite H1, H2.
  - intros so2' Hucl Husl.
    rewrite (test3_run_ai_model_eq n3 _ _ _ so2' Hr) by apply lookup_insert_eq.
    unfold verdict. now rewrite Hucl, Husl.
Qed.

Lemma classify_most_severe_first_witness :
  Test2.run_ai_model (Some 1) Test2.df sensor_limits
  = Test3.run_ai_model 7 Test2.df sensor_limits /\
  Test3.run_ai_model 7 Test2.df sensor_limits = ret SAFE.
Proof.
  destruct (classify_most_severe_first (Some 1) 7 Test2.df
              {| Time := 99; SO2 := 599 |} sensor_limits
              {| lsl := 300; usl := 800; lcl := 400; ucl := 700 |})
    as (Heq & _ & _ & Hsafe & _).
  - reflexivity.
  - reflexivity.
  - reflexivity.
  - split; [exact Heq|]. apply Hsafe; simpl; lia.
Defined.

(** C5.  The comparisons of [run_ai_model] are strict.  When [ucl < usl], a
    latest value equal to [usl] is answered WARNING, by both files; a latest
    value above [usl] is answered DANGER. *)
Theorem boundary_is_strict (n2 : option Z) (n3 : Z) (df : list Row) (r : Row)
    (limits : gmap string Limits) (so2 : Limits) :
  truthy n2 = true -> last df = Some r -> limits !! "SO2" = Some so2 ->
  (ucl so2 < usl so2 -> SO2 r = usl so2 ->
     Test2.run_ai_model n2 df limits = ret WARNING /\
     Test3.run_ai_model n3 df limits = ret WARNING) /\
  (SO2 r > usl so2 ->
     Test2.run_ai_model n2 df limits = ret DANGER /\
     Test3.run_ai_model n3 df limits = ret DANGER).
Proof.
  intros Hn Hr Hl.
  rewrite (test2_run_ai_model_eq _ _ _ _ _ Hn Hr Hl).
  rewrite (test3_run_ai_model_eq n3 _ _ _ _ Hr Hl).
  unfold verdict. split.
  - intros Hlt Heq.
    assert (H1 : (SO2 r >? usl so2) = false) by (apply gtb_le; lia).
    assert (H2 : (SO2 r >? ucl so2) = true) by (apply gtb_gt; lia).
    now rewrite H1, H2.
  - intros Hgt. apply gtb_gt in Hgt. now rewrite Hgt.
Qed.

Lemma boundary_is_strict_witness :
  Test2.run_ai_model (Some 1) [{| Time := 0; SO2 := 800 |}] sensor_limits = ret WARNING /\
  Test3.run_ai_model 0 [{| Time := 0; SO2 := 800 |}] sensor_limits = ret WARNING.
Proof.
  apply (boundary_is_strict (Some 1) 0 [{| Time := 0; SO2 := 800 |}]
           {| Time := 0; SO2 := 800 |} sensor_limits
           {| lsl := 300; usl := 800; lcl := 400; ucl := 700 |});
    reflexivity.
Defined.

(** C8.  For fixed limits, a smaller latest value never gets a more severe
    label than a larger one: with [SO2 r1 < SO2 r2], both runs of
    [run_ai_model] return, their status texts are labels, and the label of
    the first is at most the label of the second under
    [Safe < Warning < Danger]. *)
Theorem classify_monotone (n2 : option Z) (n3 : Z) (df1 df2 : list Row)
    (r1 r2 : Row) (limits : gmap string Limits) (so2 : Limits) :
  truthy n2 = true -> last df1 = Some r1 -> last df2 = Some r2 ->
  limits !! "SO2" = Some so2 -> SO2 r1 < SO2 r2 ->
  exists p1 p2 l1 l2,
    Test2.run_ai_model n2 df1 limits = ret p1 /\
    Test3.run_ai_model n3 df1 limits = ret p1 /\
    Test2.run_ai_model n2 df2 limits = ret p2 /\
    Test3.run_ai_model n3 df2 limits = ret p2 /\
    risk_of_status (status p1) = Some l1 /\
    risk_of_status (status p2) = Some l2 /\
    risk_le l1 l2.
Proof.
  intros Hn H1 H2 Hl Hlt.
  rewrite (test2_run_ai_model_eq _ _ _ _ _ Hn H1 Hl).
  rewrite (test2_run_ai_model_eq _ _ _ _ _ Hn H2 Hl).
  rewrite (test3_run_ai_model_eq n3 _ _ _ _ H1 Hl).
  rewrite (test3_run_ai_model_eq n3 _ _ _ _ H2 Hl).
  unfold verdict.
  destruct (SO2 r1 >? usl so2) eqn:E1u; destruct (SO2 r2 >? usl so2) eqn:E2u;
    destruct (SO2 r1 >? ucl so2) eqn:E1c; destruct (SO2 r2 >? ucl so2) eqn:E2c;
    rewrite ?gtb_gt, ?gtb_le in *; try lia;
    eexists _, _, _, _; repeat split; unfold risk_le; simpl; lia.
Qed.

Lemma classify_monotone_witness :
  exists p1 p2 l1 l2,
    Test2.run_ai_model (Some 2) [{| Time := 0; SO2 := 650 |}] sensor_limits = ret p1 /\
    Test3.run_ai_model 0 [{| Time := 0; SO2 := 650 |}] sensor_limits = ret p1 /\
    Test2.run_ai_model (Some 2) [{| Time := 1; SO2 := 750 |}] sensor_limits = ret p2 /\
    Test3.run_ai_model 0 [{| Time := 1; SO2 := 750 |}] sensor_limits = ret p2 /\
    risk_of_status (status p1) = Some l1 /\
    risk_of_status (status p2) = Some l2 /\
    risk_le l1 l2.
Proof.
  apply (classify_monotone (Some 2) 0 _ _ {| Time := 0; SO2 := 650 |}
           {| Time := 1; SO2 := 750 |} sensor_limits
           {| lsl := 300; usl := 800; lcl := 400; ucl := 700 |});
    reflexivity.
Defined.

(** C4.  On a frame without rows, [run_ai_model] of [test3.py] returns the
    empty status with the indicator off, which is no label at all and in
    particular not SAFE, and [update_current_so2] returns ["N/A"]; neither
    raises, whatever the stored limits. *)
Theorem empty_window_no_data (n : Z) (limits : gmap string Limits) :
  Test3.run_ai_model n [] limits = ret NO_PREDICTION /\
  risk_of_status (status NO_PREDICTION) = None /\
  NO_PREDICTION <> SAFE /\
  Test3.update_current_so2 n [] = ret "N/A".
Proof. repeat split. discriminate. Qed.

(** C2.  For a capacity [N >= 1] and a window that starts within it, any
    sequence of appends leaves at most [N] rows, and once [N] or more
    readings were appended the window is exactly the last [N] of them, in
    the order they came.  The timer of [test3.py] is the instance [N = 100].
    (For [N = 0] the slice [.iloc[-0:]] would keep every row.) *)
Theorem window_bounded_fifo (N : nat) (readings df : list Row) :
  (0 < N)%nat -> (length df <= N)%nat ->
  (length (appends N readings df) <= N)%nat /\
  ((N <= length readings)%nat ->
     appends N readings df = drop (length readings - N) readings) /\
  (forall ticks : list Tick,
     run_interval ticks df = appends 100 (row_of_tick <$> ticks) df).
Proof.
  intros HN Hdf. rewrite (appends_within N readings df Hdf). repeat split.
  - rewrite iloc_tail_length by lia. lia.
  - intros Hlen. apply iloc_tail_app_r. lia.
  - intros ticks. apply run_interval_appends.
Qed.

Lemma window_bounded_fifo_witness :
  (length (appends 2 [mkRow 1 650; mkRow 2 750; mkRow 3 850] [mkRow 0 600]) <= 2)%nat /\
  appends 2 [mkRow 1 650; mkRow 2 750; mkRow 3 850] [mkRow 0 600]
  = [mkRow 2 750; mkRow 3 850].
Proof.
  destruct (window_bounded_fifo 2 [mkRow 1 650; mkRow 2 750; mkRow 3 850] [mkRow 0 600])
    as (Hlen & Hfifo & _).
  - lia.
  - simpl. lia.
  - split; [exact Hlen|]. apply Hfifo. simpl. lia.
Defined.

(** C6.  Limits [{lsl:300, lcl:400, ucl:700, usl:800}], capacity 2, an
    empty window: after appending 650, 750 and 850 the window holds 750 and
    850; [run_ai_model] answers DANGER; the report counts one reading above
    [usl]. *)
Theorem scenario_capacity_two (t1 t2 t3 n3 : Z) :
  let limits : gmap string Limits :=
    {[ "SO2" := {| lsl := 300; lcl := 400; ucl := 700; usl := 800 |} ]} in
  let window := appends 2 [mkRow t1 650; mkRow t2 750; mkRow t3 850] [] in
  window = [mkRow t2 750; mkRow t3 850] /\
  SO2 <$> window = [750; 850] /\
  Test3.run_ai_model n3 window limits = ret DANGER /\
  Test2.run_ai_model (Some 1) window limits = ret DANGER /\
  Test2.export_pdf (Some 1) window limits = ret (Some 1%nat).
Proof. repeat split. Qed.

(** ** The settings form *)

Lemma update_settings_click n a b c d limits :
  truthy n = true ->
  update_settings n a b c d limits
  = (<["SO2" := mkLimits a b c d]> limits, (a, b, c, d)).
Proof. intros H. unfold update_settings. now rewrite H. Qed.

Lemma update_settings_no_click n a b c d limits :
  truthy n = false ->
  update_settings n a b c d limits = (limits, (a, b, c, d)).
Proof. intros H. unfold update_settings. now rewrite H. Qed.

Lemma store_ordered_insert key l limits :
  ordered l -> store_ordered limits -> store_ordered (<[key := l]> limits).
Proof.
  intros Hl Hs key' l' Hlook.
  destruct (decide (key = key')) as [->|Hne].
  - rewrite lookup_insert_eq in Hlook. now inversion Hlook; subst.
  - rewrite lookup_insert_ne in Hlook by exact Hne. eauto.
Qed.

(** The defaults of both files are in order. *)
Lemma sensor_limits_ordered : store_ordered sensor_limits.
Proof.
  intros key l H. unfold sensor_limits in H.
  apply lookup_singleton_Some in H as [_ <-].
  unfold ordered; simpl; lia.
Qed.

(** C3, as the code has it.  [update_settings] checks nothing: on a click
    the four form values are stored as they are.  From a store in order, the
    store after a click is in order exactly when the values passed are. *)
Theorem update_settings_stores_verbatim (n : option Z) (a b c d : Z)
    (limits : gmap string Limits) :
  truthy n = true ->
  (update_settings n a b c d limits).1 !! "SO2" = Some (mkLimits a b c d) /\
  (store_ordered limits ->
     (store_ordered (update_settings n a b c d limits).1
      <-> ordered (mkLimits a b c d))).
Proof.
  intros Hn. rewrite (update_settings_click _ _ _ _ _ _ Hn). cbn [fst].
  split; [apply lookup_insert_eq|].
  intros Hs. split.
  - intros H. apply (H "SO2"). apply lookup_insert_eq.
  - intros H. now apply store_ordered_insert.
Qed.

Lemma update_settings_stores_verbatim_witness :
  (update_settings (Some 1) 300 400 700 800 sensor_limits).1 !! "SO2"
  = Some (mkLimits 300 400 700 800) /\
  store_ordered (update_settings (Some 1) 300 400 700 800 sensor_limits).1.
Proof.
  destruct (update_settings_stores_verbatim (Some 1) 300 400 700 800 sensor_limits)
    as [Hstored Hiff].
  - reflexivity.
  - split; [exact Hstored|].
    apply (Hiff sensor_limits_ordered). unfold ordered; simpl; lia.
Defined.

(** C3, as the claim has it, fails: one click with the values 800, 700, 400,
    300 on the default store, which is in order, is neither rejected nor
    clamped; the out-of-order set is what the store then holds. *)
Lemma update_settings_stores_out_of_order :
  store_ordered sensor_limits /\
  ~ ordered (mkLimits 800 700 400 300) /\
  (update_settings (Some 1) 800 700 400 300 sensor_limits).1 !! "SO2"
  = Some (mkLimits 800 700 400 300) /\
  ~ store_ordered (update_settings (Some 1) 800 700 400 300 sensor_limits).1.
Proof.
  assert (Hbad : ~ ordered (mkLimits 800 700 400 300))
    by (unfold ordered; simpl; lia).
  split; [|split; [|split]].
  - apply sensor_limits_ordered.
  - exact Hbad.
  - reflexivity.
  - intros H. apply Hbad. apply (H "SO2"). reflexivity.
Qed.

(** C7.  Submitting the same four values twice leaves the store as the first
    submission left it, and each call echoes the four values.  After a click
    the set read back under ["SO2"] is exactly the set passed, the other keys
    of the store are as before, and a further submission of the same values
    changes nothing, whatever its click count. *)
Theorem update_settings_round_trip (n : option Z) (T : Limits)
    (limits : gmap string Limits) :
  let call n s := update_settings n (lsl T) (lcl T) (ucl T) (usl T) s in
  (call n (call n limits).1).1 = (call n limits).1 /\
  (call n limits).2 = (lsl T, lcl T, ucl T, usl T) /\
  (truthy n = true ->
     getitem (call n limits).1 "SO2" = ret T /\
     (forall key, key <> "SO2" -> (call n limits).1 !! key = limits !! key) /\
     (forall n', (call n' (call n limits).1).1 = (call n limits).1)).
Proof.
  cbn zeta. split; [|split].
  - unfold update_settings. destruct (truthy n); cbn [fst]; [|reflexivity].
    apply insert_insert_eq.
  - reflexivity.
  - intros Hn. rewrite (update_settings_click _ _ _ _ _ _ Hn). cbn [fst].
    split; [|split].
    + apply getitem_Some. rewrite lookup_insert_eq. now destruct T.
    + intros key Hne. now apply lookup_insert_ne.
    + intros n'. unfold update_settings. destruct (truthy n'); cbn [fst]; [|reflexivity].
      apply insert_insert_eq.
Qed.

(** C10.  Called with [None] or with [0], [update_settings] returns the store
    it was given together with the four form values; a call that changes the
    store has a truthy click count. *)
Theorem update_settings_before_click (a b c d : Z) (limits : gmap string Limits) :
  update_settings None a b c d limits = (limits, (a, b, c, d)) /\
  update_settings (Some 0) a b c d limits = (limits, (a, b, c, d)) /\
  (forall n, (update_settings n a b c d limits).1 <> limits -> truthy n = true) /\
  (forall n, (update_settings n a b c d limits).2 = (a, b, c, d)).
Proof.
  split; [|split; [|split]]; try reflexivity.
  intros n H. destruct (truthy n) eqn:E; [reflexivity|].
  rewrite (update_settings_no_click _ _ _ _ _ _ E) in H. now contradiction H.
Qed.

(** ** [dashapp.py] *)

(** C9.  On every row, assigning Warning and then Danger over an initial Safe
    gives the label of the first-match rule: Danger exactly when
    [SO2 > 10 or H2S > 15]; Warning exactly when that fails and
    [SO2 > 5 or H2S > 8]; Safe exactly when both fail. *)
Theorem overwrite_is_first_match (row : DashApp.Row) :
  let danger := DashApp.gtb (DashApp.SO2 row) 10 || DashApp.gtb (DashApp.H2S row) 15 in
  let warning := DashApp.gtb (DashApp.SO2 row) 5 || DashApp.gtb (DashApp.H2S row) 8 in
  DashApp.mock_ai_classification row = DashApp.first_match_classification row /\
  (DashApp.mock_ai_classification row = "Danger" <-> danger = true) /\
  (DashApp.mock_ai_classification row = "Warning"
     <-> danger = false /\ warning = true) /\
  (DashApp.mock_ai_classification row = "Safe"
     <-> danger = false /\ warning = false).
Proof.
  cbn zeta. unfold DashApp.mock_ai_classification, DashApp.first_match_classification.
  destruct (DashApp.gtb (DashApp.SO2 row) 10 || DashApp.gtb (DashApp.H2S row) 15);
    destruct (DashApp.gtb (DashApp.SO2 row) 5 || DashApp.gtb (DashApp.H2S row) 8);
    (split; [reflexivity|]); repeat split; intros; try discriminate;
    try match goal with H : _ /\ _ |- _ => destruct H; discriminate end.
Qed.

(** ** The dashboards without a guard or without stored limits *)

(** [test2.py] reads the last row unguarded: after a click on a frame
    without rows the read raises.  Its own frame has a hundred rows. *)
Lemma test2_run_ai_model_empty n limits :
  truthy n = true -> Test2.run_ai_model n [] limits = raise IndexError.
Proof. intros H. unfold Test2.run_ai_model. now rewrite H. Qed.

Lemma test2_run_ai_model_no_click n df limits :
  truthy n = false -> Test2.run_ai_model n df limits = ret NO_PREDICTION.
Proof. intros H. unfold Test2.run_ai_model. now rewrite H. Qed.

Lemma test2_df_length : length Test2.df = 100%nat.
Proof. reflexivity. Qed.

(** So does [so_2_monitoring_dashboard.py], whose frame has 144 rows. *)
Lemma so2_update_dashboard_empty :
  So2Dashboard.update_dashboard [] = raise IndexError.
Proof. reflexivity. Qed.

Lemma so2_update_dashboard_eq df r :
  last df = Some r ->
  So2Dashboard.update_dashboard df =
    ret (if (So2Dashboard.SO2_ppm r <? 5)%float then "Safe"
         else if (So2Dashboard.SO2_ppm r <? 10)%float then "Warning"
         else "Danger").
Proof.
  intros H. unfold So2Dashboard.update_dashboard.
  rewrite (iloc_last_Some _ _ H), bind_ret.
  destruct (So2Dashboard.SO2_ppm r <? 5)%float; [reflexivity|].
  now destruct (So2Dashboard.SO2_ppm r <? 10)%float.
Qed.

(** Its chain tests [<] against the constants 5 and 10, so a reading on a
    constant takes the more severe label. *)
Example so2_update_dashboard_at_10 t z :
  So2Dashboard.update_dashboard [So2Dashboard.mkRow t 10 z] = ret "Danger".
Proof. reflexivity. Qed.

Example so2_update_dashboard_at_5 t z :
  So2Dashboard.update_dashboard [So2Dashboard.mkRow t 5 z] = ret "Warning".
Proof. reflexivity. Qed.

Example so2_update_dashboard_nan t z :
  So2Dashboard.update_dashboard [So2Dashboard.mkRow t nan z] = ret "Danger".
Proof. reflexivity. Qed.

(** [<] on binary64 is transitive. *)
Lemma SFltb_trans x y z :
  SFltb x y = true -> SFltb y z = true -> SFltb x z = true.
Proof.
  unfold SFltb.
  destruct x as [sx|sx| |sx mx ex], y as [sy|sy| |sy my ey], z as [sz|sz| |sz mz ez];
    cbn [SFcompare];
    repeat match goal with s : bool |- _ => destruct s end;
    try discriminate; try reflexivity.
  all: change (Pcompare ?a ?b Eq) with (Pos.compare a b).
  all: destruct (Z.compare_spec ex ey), (Z.compare_spec ey ez), (Z.compare_spec ex ez);
       try discriminate; try lia; try reflexivity; subst.
  all: destruct (Pos.compare_spec mx my), (Pos.compare_spec my mz),
         (Pos.compare_spec mx mz);
       cbn; try discriminate; try lia; try reflexivity.
Qed.

Lemma float_ltb_trans (a b c : float) :
  (a <? b)%float = true -> (b <? c)%float = true -> (a <? c)%float = true.
Proof. rewrite !ltb_spec. apply SFltb_trans. Qed.

(** X18.  The fixed-constant chain is monotone as well. *)
Lemma so2_update_dashboard_monotone df1 df2 r1 r2 :
  last df1 = Some r1 -> last df2 = Some r2 ->
  (So2Dashboard.SO2_ppm r1 <? So2Dashboard.SO2_ppm r2)%float = true ->
  exists s1 s2 l1 l2,
    So2Dashboard.update_dashboard df1 = ret s1 /\
    So2Dashboard.update_dashboard df2 = ret s2 /\
    risk_of_status s1 = Some l1 /\ risk_of_status s2 = Some l2 /\
    risk_le l1 l2.
Proof.
  intros H1 H2 Hlt.
  rewrite (so2_update_dashboard_eq _ _ H1), (so2_update_dashboard_eq _ _ H2).
  pose proof (float_ltb_trans _ _ 5%float Hlt) as T5.
  pose proof (float_ltb_trans _ _ 10%float Hlt) as T10.
  destruct (So2Dashboard.SO2_ppm r2 <? 5)%float;
    [rewrite T5 by reflexivity|];
    (destruct (So2Dashboard.SO2_ppm r2 <? 10)%float;
      [rewrite ?T10 by reflexivity|]);
    destruct (So2Dashboard.SO2_ppm r1 <? 5)%float;
    destruct (So2Dashboard.SO2_ppm r1 <? 10)%float;
    eexists _, _, _, _; repeat split; unfold risk_le; simpl; lia.
Qed.

Lemma so2_update_dashboard_monotone_witness :
  exists s1 s2 l1 l2,
    So2Dashboard.update_dashboard [So2Dashboard.mkRow 0 2 "Zone A"] = ret s1 /\
    So2Dashboard.update_dashboard [So2Dashboard.mkRow 10 7 "Zone B"] = ret s2 /\
    risk_of_status s1 = Some l1 /\ risk_of_status s2 = Some l2 /\
    risk_le l1 l2.
Proof.
  apply (so2_update_dashboard_monotone _ _ (So2Dashboard.mkRow 0 2 "Zone A")
           (So2Dashboard.mkRow 10 7 "Zone B")); reflexivity.
Defined.

(** * Further properties of the callbacks *)

(** ** When the callbacks raise *)

Lemma last_nil_or {A} (l : list A) : l = [] \/ exists x, last l = Some x.
Proof.
  destruct l as [|a l]; [now left|]. right.
  apply empty_false_last. reflexivity.
Qed.

Lemma verdict_cases v so2 :
  verdict v so2 = DANGER \/ verdict v so2 = WARNING \/ verdict v so2 = SAFE.
Proof.
  unfold verdict. destruct (v >? usl so2); [now left|].
  destruct (v >? ucl so2); [now right; left | now right; right].
Qed.

Lemma test3_run_ai_model_no_key n df r limits :
  last df = Some r -> limits !! "SO2" = None ->
  Test3.run_ai_model n df limits = raise KeyError.
Proof.
  intros Hr Hl. unfold Test3.run_ai_model.
  rewrite (last_not_empty _ _ Hr), (iloc_last_column _ _ Hr). cbn [negb].
  now rewrite bind_ret, (getitem_None _ _ Hl).
Qed.

Lemma test2_run_ai_model_no_key n df r limits :
  truthy n = true -> last df = Some r -> limits !! "SO2" = None ->
  Test2.run_ai_model n df limits = raise KeyError.
Proof.
  intros Hn Hr Hl. unfold Test2.run_ai_model.
  now rewrite Hn, (iloc_last_column _ _ Hr), bind_ret, (getitem_None _ _ Hl).
Qed.



(** ** The store under submissions, the frame under ticks *)

Lemma submit_click limits s :
  truthy (clicks s) = true -> submit limits s = <["SO2" := form s]> limits.
Proof.
  intros H. unfold submit. rewrite (update_settings_click _ _ _ _ _ _ H).
  cbn [fst]. now destruct (form s).
Qed.

Lemma submit_no_click limits s :
  truthy (clicks s) = false -> submit limits s = limits.
Proof.
  intros H. unfold submit. now rewrite (update_settings_no_click _ _ _ _ _ _ H).
Qed.



Lemma last_click_snoc subs s :
  last_click (subs ++ [s])
  = if truthy (clicks s) then Some (form s) else last_click subs.
Proof.
  unfold last_click. rewrite filter_app.
  destruct (truthy (clicks s)) eqn:E.
  - rewrite (filter_cons_True _ s []) by exact E. cbn [filter list_filter].
    now rewrite last_snoc.
  - rewrite (filter_cons_False _ s []) by (rewrite E; discriminate).
    cbn [filter list_filter]. now rewrite app_nil_r.
Qed.

Lemma submit_all_last_click subs limits :
  foldl submit limits subs
  = match last_click subs with
    | Some T => <["SO2" := T]> limits
    | None => limits
    end.
Proof.
  induction subs as [|s subs IH] using rev_ind; [reflexivity|].
  rewrite foldl_app, last_click_snoc. cbn [foldl].
  destruct (truthy (clicks s)) eqn:E.
  - rewrite (submit_click _ _ E), IH.
    destruct (last_click subs); [apply insert_insert_eq | reflexivity].
  - now rewrite (submit_no_click _ _ E).
Qed.

Lemma run_cons e events s : run (e :: events) s = run events (step s e).
Proof. reflexivity. Qed.

Lemma run_frame events s :
  frame (run events s) = run_interval (ticks_of events) (frame s).
Proof.
  revert s. induction events as [|e events IH]; intros s; [reflexivity|].
  rewrite run_cons, IH. now destruct e.
Qed.

Lemma run_stored events s :
  stored (run events s) = foldl submit (stored s) (submissions_of events).
Proof.
  revert s. induction events as [|e events IH]; intros s; [reflexivity|].
  rewrite run_cons, IH. now destruct e.
Qed.

(** X5.  In [test3.py] ticks and submissions do not interfere: after any events
    the frame is what the ticks alone make of it, and the store is the old
    one with ["SO2"] replaced by the values of the last submission that was a
    click, or the old one when there was no click. *)
Theorem run_separates (events : list Event) (s : State) :
  frame (run events s) = run_interval (ticks_of events) (frame s) /\
  stored (run events s)
  = match last_click (submissions_of events) with
    | Some T => <["SO2" := T]> (stored s)
    | None => stored s
    end.
Proof.
  split; [apply run_frame|].
  rewrite run_stored. apply submit_all_last_click.
Qed.

Lemma sensor_settings_tab_eq limits so2 :
  limits !! "SO2" = Some so2 ->
  sensor_settings_tab limits = ret (lsl so2, lcl so2, ucl so2, usl so2).
Proof.
  intros H. unfold sensor_settings_tab.
  now rewrite !(getitem_Some _ _ _ H), !bind_ret.
Qed.

Lemma sensor_settings_tab_no_key limits :
  limits !! "SO2" = None -> sensor_settings_tab limits = raise KeyError.
Proof.
  intros H. unfold sensor_settings_tab. now rewrite (getitem_None _ _ H).
Qed.






(** ** [test2.py]: the fixed frame, the form and the report *)


Lemma export_pdf_eq n df limits so2 :
  truthy n = true -> limits !! "SO2" = Some so2 ->
  Test2.export_pdf n df limits
  = ret (Some (length (filter (fun r => SO2 r > usl so2) df))).
Proof.
  intros Hn Hl. unfold Test2.export_pdf.
  now rewrite Hn, (getitem_Some _ _ _ Hl), bind_ret.
Qed.

Lemma export_pdf_report_eq n df limits so2 :
  truthy n = true -> limits !! "SO2" = Some so2 ->
  Test2.export_pdf_report n df limits
  = ret (Some {| Test2.report_lsl := lsl so2; Test2.report_lcl := lcl so2;
                 Test2.report_ucl := ucl so2; Test2.report_usl := usl so2;
                 Test2.report_min := Test2.column_min (SO2 <$> df);
                 Test2.report_max := Test2.column_max (SO2 <$> df);
                 Test2.report_alerts :=
                   length (filter (fun r => SO2 r > usl so2) df) |}).
Proof.
  intros Hn Hl. unfold Test2.export_pdf_report.
  now rewrite Hn, !(getitem_Some _ _ _ Hl), !bind_ret.
Qed.



(** X6.  The settings form and the store agree.  After a click the form shows the
    four values that were submitted; and submitting the four values the form
    shows, clicked or not, leaves the store as it is. *)
Theorem settings_form_round_trip (a b c d : Z) (df : list Row)
    (limits : gmap string Limits) :
  (forall n, truthy n = true ->
     sensor_settings_tab (update_settings n a b c d limits).1 = ret (a, b, c, d) /\
     switch_tabs "settings" df (update_settings n a b c d limits).1
     = ret (Some (SettingsCard (a, b, c, d)))) /\
  (sensor_settings_tab limits = ret (a, b, c, d) ->
   forall n, (update_settings n a b c d limits).1 = limits).
Proof.
  split.
  - intros n Hn. rewrite (update_settings_click _ _ _ _ _ _ Hn). cbn [fst].
    assert (H : sensor_settings_tab (<["SO2" := mkLimits a b c d]> limits)
                = ret (a, b, c, d))
      by (now rewrite (sensor_settings_tab_eq _ (mkLimits a b c d))
            by apply lookup_insert_eq).
    split; [exact H|]. unfold switch_tabs.
    rewrite decide_True by reflexivity. now rewrite H.
  - intros H n. destruct (limits !! "SO2") as [so2|] eqn:Hl.
    + rewrite (sensor_settings_tab_eq _ _ Hl) in H. inversion H; subst.
      unfold update_settings. destruct (truthy n); cbn [fst]; [|reflexivity].
      apply insert_id. rewrite Hl. now destruct so2.
    + rewrite (sensor_settings_tab_no_key _ Hl) in H. discriminate.
Qed.

(** ** [test3.py]: what the window holds *)

Lemma iloc_tail_suffix {A} k (l : list A) : Pandas.iloc_tail k l `suffix_of` l.
Proof. destruct k; [reflexivity | apply suffix_drop]. Qed.

Lemma run_interval_suffix ticks df :
  run_interval ticks df `suffix_of` (df ++ (row_of_tick <$> ticks))%list.
Proof.
  rewrite run_interval_appends. destruct ticks as [|t ticks].
  - cbn. now rewrite app_nil_r.
  - rewrite appends_tail by discriminate. apply iloc_tail_suffix.
Qed.

Lemma test3_df_length start draw : length (Test3.df start draw) = 100%nat.
Proof. unfold Test3.df. now rewrite length_fmap, length_seq. Qed.

Lemma run_interval_length_within ticks (d : list Row) :
  (length d <= 100)%nat ->
  length (run_interval ticks d) = Nat.min 100 (length d + length ticks).
Proof.
  intros Hd. rewrite run_interval_appends, appends_within by exact Hd.
  rewrite iloc_tail_length, length_app, length_fmap by lia. reflexivity.
Qed.

(** X7.  The frame of [test3.py] never has fewer rows than before a tick and
    never more than a hundred: from at most a hundred rows it has
    [min 100 (rows + ticks)] of them, and from the hundred rows of start-up
    it has exactly a hundred at all times. *)
Theorem window_length (ticks : list Tick) (df : list Row) (start : Z)
    (draw : nat -> Z) :
  (length df <= 100)%nat ->
  length (run_interval ticks df) = Nat.min 100 (length df + length ticks) /\
  length (run_interval ticks (Test3.df start draw)) = 100%nat.
Proof.
  intros Hdf. split; [now apply run_interval_length_within|].
  rewrite run_interval_length_within by (rewrite test3_df_length; lia).
  rewrite test3_df_length. lia.
Qed.

Lemma window_length_witness :
  length (run_interval [(0, 1); (5, -3)] []) = 2%nat.
Proof.
  destruct (window_length [(0, 1); (5, -3)] [] 0 (fun _ => 0)) as [H _].
  - simpl. lia.
  - exact H.
Defined.

Lemma last_iloc_tail_snoc {A} k (l : list A) x :
  (0 < k)%nat -> last (Pandas.iloc_tail k (l ++ [x])) = Some x.
Proof.
  intros Hk. destruct k as [|k]; [lia|]. unfold Pandas.iloc_tail.
  rewrite length_app. cbn [length].
  rewrite drop_app_le by lia. apply last_snoc.
Qed.

Lemma update_live_chart_last t rnd df :
  last (Test3.update_live_chart t rnd df) = Some {| Time := t; SO2 := 500 + rnd |}.
Proof.
  unfold Test3.update_live_chart, Test3.append_row, Pandas.concat.
  apply last_iloc_tail_snoc. lia.
Qed.

Lemma update_current_so2_eq n df r :
  last df = Some r -> Test3.update_current_so2 n df = ret (Test3.format_ppm (SO2 r)).
Proof.
  intros Hr. unfold Test3.update_current_so2.
  rewrite (last_not_empty _ _ Hr), (iloc_last_column _ _ Hr). reflexivity.
Qed.

(** X8.  What is read right after a tick is the reading the tick appended: it is
    the last row of the new frame, [run_ai_model] answers for it and
    [update_current_so2] shows it. *)
Theorem tick_then_read (t rnd n : Z) (df : list Row)
    (limits : gmap string Limits) (so2 : Limits) :
  limits !! "SO2" = Some so2 ->
  last (Test3.update_live_chart t rnd df) = Some {| Time := t; SO2 := 500 + rnd |} /\
  Test3.run_ai_model n (Test3.update_live_chart t rnd df) limits
  = ret (verdict (500 + rnd) so2) /\
  Test3.update_current_so2 n (Test3.update_live_chart t rnd df)
  = ret (Test3.format_ppm (500 + rnd)).
Proof.
  intros Hl. pose proof (update_live_chart_last t rnd df) as Hlast.
  split; [exact Hlast|]. split.
  - apply (test3_run_ai_model_eq n _ _ _ _ Hlast Hl).
  - apply (update_current_so2_eq n _ _ Hlast).
Qed.

Lemma tick_then_read_witness :
  Test3.run_ai_model 1 (Test3.update_live_chart 7 150 []) sensor_limits = ret SAFE.
Proof.
  destruct (tick_then_read 7 150 1 [] sensor_limits
              {| lsl := 300; usl := 800; lcl := 400; ucl := 700 |}) as (_ & H & _).
  - reflexivity.
  - exact H.
Defined.

Lemma Forall_suffix {A} (P : A -> Prop) (l1 l2 : list A) :
  l1 `suffix_of` l2 -> Forall P l2 -> Forall P l1.
Proof. intros [k ->] H. now apply Forall_app in H as [_ H]. Qed.

Lemma test3_df_in_range start draw :
  (forall i, -50 <= draw i <= 50) ->
  Forall (fun r => 400 <= SO2 r <= 650) (Test3.df start draw).
Proof.
  intros Hd. unfold Test3.df. apply Forall_fmap, Forall_forall.
  intros i _. cbn. specialize (Hd i). lia.
Qed.

(** X9.  The simulated readings stay between 400 and 650: when the draws are
    within the bounds [randint] is called with, every row of the frame is,
    from start-up on and after any ticks.  So as long as the stored [ucl] and
    [usl] are 650 or more, as the defaults 700 and 800 are, [run_ai_model]
    answers SAFE on every tick. *)
Theorem simulator_never_alarms (start n : Z) (draw : nat -> Z)
    (ticks : list Tick) (limits : gmap string Limits) (so2 : Limits) :
  (forall i, -50 <= draw i <= 50) ->
  Forall (fun t : Tick => -100 <= t.2 <= 150) ticks ->
  limits !! "SO2" = Some so2 -> 650 <= ucl so2 -> 650 <= usl so2 ->
  Forall (fun r => 400 <= SO2 r <= 650) (run_interval ticks (Test3.df start draw)) /\
  Test3.run_ai_model n (run_interval ticks (Test3.df start draw)) limits = ret SAFE.
Proof.
  intros Hd Ht Hl Hucl Husl.
  assert (Hall : Forall (fun r => 400 <= SO2 r <= 650)
                   (run_interval ticks (Test3.df start draw))).
  { apply (Forall_suffix _ _ _ (run_interval_suffix _ _)).
    apply Forall_app. split; [now apply test3_df_in_range|].
    apply Forall_fmap. eapply Forall_impl; [exact Ht|].
    intros [t rnd] H. cbn in *. lia. }
  split; [exact Hall|].
  destruct (last_nil_or (run_interval ticks (Test3.df start draw))) as [E | [r Hr]].
  - apply (f_equal length) in E.
    rewrite run_interval_length_within in E by (rewrite test3_df_length; lia).
    rewrite test3_df_length in E. cbn [length] in E. lia.
  - rewrite (test3_run_ai_model_eq n _ _ _ _ Hr Hl).
    apply last_Some_elem_of in Hr.
    rewrite Forall_forall in Hall. specialize (Hall r Hr).
    unfold verdict.
    assert (H1 : (SO2 r >? usl so2) = false) by (apply gtb_le; lia).
    assert (H2 : (SO2 r >? ucl so2) = false) by (apply gtb_le; lia).
    now rewrite H1, H2.
Qed.

Lemma simulator_never_alarms_witness :
  Test3.run_ai_model 3 (run_interval [(0, 150); (1, -100)] (Test3.df 0 (fun _ => 50)))
    sensor_limits = ret SAFE.
Proof.
  apply (simulator_never_alarms 0 3 (fun _ => 50) [(0, 150); (1, -100)]
           sensor_limits {| lsl := 300; usl := 800; lcl := 400; ucl := 700 |}).
  - intros _. lia.
  - repeat constructor; simpl; lia.
  - reflexivity.
  - simpl. lia.
  - simpl. lia.
Defined.

(** ** The answers for a frame without rows are given for no other frame *)

Lemma string_length_app (a b : string) :
  String.length (a +:+ b) = (String.length a + String.length b)%nat.
Proof.
  induction a as [|c a IH]; [reflexivity|].
  change (S (String.length (a +:+ b)) = S (String.length a + String.length b)).
  now rewrite IH.
Qed.

Lemma format_ppm_not_NA latest : Test3.format_ppm latest <> "N/A".
Proof.
  intros H. apply (f_equal String.length) in H.
  unfold Test3.format_ppm in H. rewrite string_length_app in H.
  cbn in H. lia.
Qed.

(** X10.  In [test3.py] the text ["N/A"] and the empty status are shown exactly
    when the frame has no rows: no reading is formatted as ["N/A"], and no
    verdict has the empty status, whatever the store holds. *)
Theorem no_data_answers_only_when_empty (n : Z) (df : list Row)
    (limits : gmap string Limits) :
  (Test3.update_current_so2 n df = ret "N/A" <-> df = []) /\
  (Test3.run_ai_model n df limits = ret NO_PREDICTION <-> df = []).
Proof.
  destruct (last_nil_or df) as [-> | [r Hr]].
  - split; split; reflexivity.
  - assert (Hne : df <> []) by (intros ->; discriminate).
    split; (split; [|intros ->; discriminate]).
    + rewrite (update_current_so2_eq n _ _ Hr). intros H. inversion H as [H'].
      now apply format_ppm_not_NA in H'.
    + destruct (limits !! "SO2") as [so2|] eqn:Hl.
      * rewrite (test3_run_ai_model_eq n _ _ _ _ Hr Hl). intros H.
        destruct (verdict_cases (SO2 r) so2) as [E | [E | E]];
          rewrite E in H; discriminate.
      * rewrite (test3_run_ai_model_no_key n _ _ _ Hr Hl). discriminate.
Qed.

(** ** The time axis *)

Lemma seq_times_sorted (f : nat -> Z) (a k : nat) :
  (forall i j, (i <= j)%nat -> f i <= f j) ->
  StronglySorted Z.le (f <$> seq a k).
Proof.
  intros Hf. revert a. induction k as [|k IH]; intros a; cbn; constructor.
  - apply IH.
  - apply Forall_fmap, Forall_forall. intros i Hi.
    apply elem_of_seq in Hi. cbn. apply Hf. lia.
Qed.

Lemma test3_df_sorted start draw :
  StronglySorted Z.le (Time <$> Test3.df start draw).
Proof.
  unfold Test3.df. rewrite <- list_fmap_compose.
  apply seq_times_sorted. intros i j Hij. cbn. lia.
Qed.

(** X11.  When the clock does not run backwards, the frame stays ordered by time:
    if the times of the rows followed by the times of the ticks are in
    order, so are the times of the frame after the ticks.  The frame of
    start-up is in order. *)
Theorem window_stays_sorted (ticks : list Tick) (df : list Row) (start : Z)
    (draw : nat -> Z) :
  StronglySorted Z.le ((Time <$> df) ++ (fst <$> ticks))%list ->
  StronglySorted Z.le (Time <$> run_interval ticks df) /\
  StronglySorted Z.le (Time <$> Test3.df start draw).
Proof.
  intros H. split; [|apply test3_df_sorted].
  destruct (run_interval_suffix ticks df) as [k Hk].
  assert (E : ((Time <$> df) ++ (fst <$> ticks))%list
              = ((Time <$> k) ++ (Time <$> run_interval ticks df))%list).
  { rewrite <- fmap_app, <- Hk, fmap_app. f_equal.
    rewrite <- list_fmap_compose. reflexivity. }
  rewrite E in H. now apply StronglySorted_app_1_r in H.
Qed.

Lemma window_stays_sorted_witness :
  StronglySorted Z.le (Time <$> run_interval [(3, 0); (3, 10); (8, -20)]
                                  [mkRow 1 500; mkRow 2 510]).
Proof.
  apply (window_stays_sorted [(3, 0); (3, 10); (8, -20)]
           [mkRow 1 500; mkRow 2 510] 0 (fun _ => 0)).
  cbn. repeat constructor; lia.
Defined.

(** ** [test2.py]: the report *)

Lemma filter_length_pos {A} (P : A -> Prop) `{!forall x, Decision (P x)} (l : list A) :
  (0 < length (filter P l))%nat <-> exists x, x ∈ l /\ P x.
Proof.
  split.
  - intros Hpos. destruct (filter P l) as [|x l'] eqn:E; [cbn in Hpos; lia|].
    exists x. apply and_comm, (list_elem_of_filter P). rewrite E. left.
  - intros (x & Hx & HP).
    assert (Hin : x ∈ filter P l) by (apply list_elem_of_filter; auto).
    destruct (filter P l); [inversion Hin | cbn; lia].
Qed.

Lemma filter_length_mono {A} (P Q : A -> Prop) `{!forall x, Decision (P x)}
    `{!forall x, Decision (Q x)} (l : list A) :
  (forall x, P x -> Q x) -> (length (filter P l) <= length (filter Q l))%nat.
Proof.
  intros HPQ. induction l as [|x l IH]; [reflexivity|].
  destruct (decide (P x)) as [HP|HP].
  - rewrite (filter_cons_True P x l HP), (filter_cons_True Q x l (HPQ x HP)).
    cbn. lia.
  - rewrite (filter_cons_False P x l HP).
    destruct (decide (Q x)) as [HQ|HQ].
    + rewrite (filter_cons_True Q x l HQ). cbn. lia.
    + now rewrite (filter_cons_False Q x l HQ).
Qed.

Lemma verdict_DANGER v so2 : verdict v so2 = DANGER -> v > usl so2.
Proof.
  unfold verdict. destruct (v >? usl so2) eqn:E; [now apply gtb_gt in E|].
  destruct (v >? ucl so2); discriminate.
Qed.

(** X12.  A DANGER answer is backed by the report: when a click on "Run AI
    Prediction" is answered DANGER, a click on "Export PDF Report" with the
    same frame and store counts at least one reading above USL, and never
    more than the frame has rows. *)
Theorem danger_is_counted (n n' : option Z) (df : list Row)
    (limits : gmap string Limits) :
  truthy n' = true ->
  Test2.run_ai_model n df limits = ret DANGER ->
  exists alerts,
    Test2.export_pdf n' df limits = ret (Some alerts) /\
    (1 <= alerts <= length df)%nat.
Proof.
  intros Hn' Hrun.
  destruct (truthy n) eqn:Hn;
    [|rewrite (test2_run_ai_model_no_click _ _ _ Hn) in Hrun; discriminate].
  destruct (last_nil_or df) as [-> | [r Hr]];
    [rewrite (test2_run_ai_model_empty _ _ Hn) in Hrun; discriminate|].
  destruct (limits !! "SO2") as [so2|] eqn:Hl;
    [|rewrite (test2_run_ai_model_no_key _ _ _ _ Hn Hr Hl) in Hrun; discriminate].
  rewrite (test2_run_ai_model_eq _ _ _ _ _ Hn Hr Hl) in Hrun.
  inversion Hrun as [Hv]. apply verdict_DANGER in Hv.
  rewrite (export_pdf_eq _ _ _ _ Hn' Hl). eexists. split; [reflexivity|].
  split; [|apply length_filter].
  apply filter_length_pos. exists r. split; [|exact Hv].
  now apply last_Some_elem_of.
Qed.

Lemma danger_is_counted_witness :
  exists alerts,
    Test2.export_pdf (Some 1) [mkRow 0 650; mkRow 1 850] sensor_limits
    = ret (Some alerts) /\
    (1 <= alerts <= length [mkRow 0 650; mkRow 1 850])%nat.
Proof.
  apply (danger_is_counted (Some 2) (Some 1) [mkRow 0 650; mkRow 1 850] sensor_limits);
    reflexivity.
Defined.

(** X13.  The count of the report depends on the stored set through [usl] alone,
    and a higher [usl] never counts more: for two stores and the same frame,
    [usl] at most the other's gives at least the other's count. *)
Theorem alerts_antitone_in_usl (n : option Z) (df : list Row)
    (limits limits' : gmap string Limits) (so2 so2' : Limits) :
  truthy n = true ->
  limits !! "SO2" = Some so2 -> limits' !! "SO2" = Some so2' ->
  usl so2 <= usl so2' ->
  exists alerts alerts',
    Test2.export_pdf n df limits = ret (Some alerts) /\
    Test2.export_pdf n df limits' = ret (Some alerts') /\
    (alerts' <= alerts)%nat /\
    (usl so2 = usl so2' -> alerts' = alerts).
Proof.
  intros Hn Hl Hl' Hle.
  rewrite (export_pdf_eq _ _ _ _ Hn Hl), (export_pdf_eq _ _ _ _ Hn Hl').
  eexists _, _. split; [reflexivity|]. split; [reflexivity|]. split.
  - apply filter_length_mono. intros r. lia.
  - intros ->. reflexivity.
Qed.

Lemma alerts_antitone_in_usl_witness :
  exists alerts alerts',
    Test2.export_pdf (Some 1) Test2.df
      (<["SO2" := mkLimits 300 400 520 550]> sensor_limits) = ret (Some alerts) /\
    Test2.export_pdf (Some 1) Test2.df sensor_limits = ret (Some alerts') /\
    (alerts' <= alerts)%nat /\
    (550 = 800 -> alerts' = alerts).
Proof.
  apply (alerts_antitone_in_usl (Some 1) Test2.df
           (<["SO2" := mkLimits 300 400 520 550]> sensor_limits) sensor_limits
           (mkLimits 300 400 520 550) (mkLimits 300 400 700 800));
    try reflexivity.
  simpl. lia.
Defined.

Lemma foldl_max_spec v vs :
  (foldl Z.max v vs = v \/ foldl Z.max v vs ∈ vs) /\
  v <= foldl Z.max v vs /\
  Forall (fun x => x <= foldl Z.max v vs) vs.
Proof.
  revert v. induction vs as [|w vs IH]; intros v; cbn [foldl].
  - repeat split; [now left | lia | constructor].
  - destruct (IH (Z.max v w)) as ([E | Hin] & Hle & Hall).
    + repeat split.
      * rewrite E. destruct (Z.max_spec v w) as [[_ ->] | [_ ->]];
          [right; left | now left].
      * lia.
      * constructor; [lia | exact Hall].
    + repeat split; [right; now right | lia | constructor; [lia | exact Hall]].
Qed.

Lemma foldl_min_spec v vs :
  (foldl Z.min v vs = v \/ foldl Z.min v vs ∈ vs) /\
  foldl Z.min v vs <= v /\
  Forall (fun x => foldl Z.min v vs <= x) vs.
Proof.
  revert v. induction vs as [|w vs IH]; intros v; cbn [foldl].
  - repeat split; [now left | lia | constructor].
  - destruct (IH (Z.min v w)) as ([E | Hin] & Hle & Hall).
    + repeat split.
      * rewrite E. destruct (Z.min_spec v w) as [[_ ->] | [_ ->]];
          [now left | right; left].
      * lia.
      * constructor; [lia | exact Hall].
    + repeat split; [right; now right | lia | constructor; [lia | exact Hall]].
Qed.

Lemma column_max_Some col m :
  Test2.column_max col = Some m <-> m ∈ col /\ Forall (fun x => x <= m) col.
Proof.
  destruct col as [|v vs]; cbn.
  - split; [discriminate | intros [H _]; inversion H].
  - destruct (foldl_max_spec v vs) as (Hin & Hle & Hall). split.
    + intros [= <-]. split.
      * destruct Hin as [-> | Hin]; [left | now right].
      * now constructor.
    + intros [Hm Hb]. f_equal. apply Forall_cons in Hb as [Hv Hvs].
      assert (foldl Z.max v vs <= m).
      { destruct Hin as [-> | Hin]; [exact Hv|].
        rewrite Forall_forall in Hvs. now apply Hvs. }
      assert (m <= foldl Z.max v vs).
      { apply elem_of_cons in Hm as [-> | Hm]; [exact Hle|].
        rewrite Forall_forall in Hall. now apply Hall. }
      lia.
Qed.

Lemma column_min_Some col m :
  Test2.column_min col = Some m <-> m ∈ col /\ Forall (fun x => m <= x) col.
Proof.
  destruct col as [|v vs]; cbn.
  - split; [discriminate | intros [H _]; inversion H].
  - destruct (foldl_min_spec v vs) as (Hin & Hle & Hall). split.
    + intros [= <-]. split.
      * destruct Hin as [-> | Hin]; [left | now right].
      * now constructor.
    + intros [Hm Hb]. f_equal. apply Forall_cons in Hb as [Hv Hvs].
      assert (m <= foldl Z.min v vs).
      { destruct Hin as [-> | Hin]; [exact Hv|].
        rewrite Forall_forall in Hvs. now apply Hvs. }
      assert (foldl Z.min v vs <= m).
      { apply elem_of_cons in Hm as [-> | Hm]; [exact Hle|].
        rewrite Forall_forall in Hall. now apply Hall. }
      lia.
Qed.

(** X14.  The numbers of one report fit together.  After a click, with ["SO2"] in
    the store, [export_pdf] produces a report whose four limits are the
    stored ones; its Min and Max are readings of the frame that bound all the
    others, and are missing exactly when the frame has no rows; and it counts
    a reading above USL exactly when its Max is above the USL it prints. *)
Theorem report_is_consistent (n : option Z) (df : list Row)
    (limits : gmap string Limits) (so2 : Limits) :
  truthy n = true -> limits !! "SO2" = Some so2 ->
  exists rep,
    Test2.export_pdf_report n df limits = ret (Some rep) /\
    Test2.export_pdf n df limits = ret (Some (Test2.report_alerts rep)) /\
    mkLimits (Test2.report_lsl rep) (Test2.report_lcl rep)
             (Test2.report_ucl rep) (Test2.report_usl rep) = so2 /\
    (forall m, Test2.report_max rep = Some m
               <-> m ∈ SO2 <$> df /\ Forall (fun r => SO2 r <= m) df) /\
    (forall m, Test2.report_min rep = Some m
               <-> m ∈ SO2 <$> df /\ Forall (fun r => m <= SO2 r) df) /\
    (Test2.report_max rep = None <-> df = []) /\
    (Test2.report_min rep = None <-> df = []) /\
    ((0 < Test2.report_alerts rep)%nat
     <-> exists m, Test2.report_max rep = Some m /\ m > Test2.report_usl rep).
Proof.
  intros Hn Hl. rewrite (export_pdf_report_eq _ _ _ _ Hn Hl).
  rewrite (export_pdf_eq _ _ _ _ Hn Hl).
  eexists. split; [reflexivity|]. cbn.
  split; [reflexivity|]. split; [now destruct so2|].
  split; [|split; [|split; [|split]]].
  - intros m. rewrite column_max_Some, Forall_fmap. reflexivity.
  - intros m. rewrite column_min_Some, Forall_fmap. reflexivity.
  - destruct df; cbn; split; (discriminate || reflexivity).
  - destruct df; cbn; split; (discriminate || reflexivity).
  - rewrite filter_length_pos. split.
    + intros (r & Hr & Hgt).
      destruct (Test2.column_max (SO2 <$> df)) as [m|] eqn:E.
      * exists m. split; [reflexivity|].
        apply column_max_Some in E as [_ Hb].
        rewrite Forall_fmap, Forall_forall in Hb. specialize (Hb r Hr). cbn in Hb. lia.
      * destruct df; [inversion Hr | discriminate].
    + intros (m & E & Hgt). apply column_max_Some in E as [Hm _].
      apply list_elem_of_fmap in Hm as (r & -> & Hr). eauto.
Qed.

Lemma report_is_consistent_witness :
  exists rep,
    Test2.export_pdf_report (Some 1) Test2.df sensor_limits = ret (Some rep) /\
    Test2.report_min rep = Some 500 /\ Test2.report_max rep = Some 599 /\
    Test2.report_alerts rep = 0%nat.
Proof.
  destruct (report_is_consistent (Some 1) Test2.df sensor_limits
              {| lsl := 300; usl := 800; lcl := 400; ucl := 700 |})
    as (rep & Hrep & _); [reflexivity | reflexivity |].
  exists rep. split; [exact Hrep|].
  inversion Hrep. repeat split.
Defined.

(** ** [dashapp.py] beyond the rule *)

Lemma mock_ai_classification_cases row :
  DashApp.mock_ai_classification row = "Safe" \/
  DashApp.mock_ai_classification row = "Warning" \/
  DashApp.mock_ai_classification row = "Danger".
Proof.
  unfold DashApp.mock_ai_classification.
  destruct (DashApp.gtb (DashApp.SO2 row) 10 || DashApp.gtb (DashApp.H2S row) 15);
    destruct (DashApp.gtb (DashApp.SO2 row) 5 || DashApp.gtb (DashApp.H2S row) 8);
    auto.
Qed.

(** [mock_ai_classification] reads two of the five gases: rows that agree on
    SO2 and H2S get the same label, whatever their CO2, CO and O2; and the
    label is always one of Safe, Warning, Danger. *)
Theorem mock_ai_reads_two_gases (so2 h2s co2 co o2 co2' co' o2' : float) :
  DashApp.mock_ai_classification (DashApp.mkRow so2 co2 co h2s o2)
  = DashApp.mock_ai_classification (DashApp.mkRow so2 co2' co' h2s o2') /\
  is_Some (risk_of_status
             (DashApp.mock_ai_classification (DashApp.mkRow so2 co2 co h2s o2))).
Proof.
  split; [reflexivity|].
  destruct (mock_ai_classification_cases (DashApp.mkRow so2 co2 co h2s o2))
    as [-> | [-> | ->]]; eexists; reflexivity.
Qed.

Lemma gtb_mono (a b c : float) :
  (a <? b)%float = true \/ a = b ->
  DashApp.gtb a c = true -> DashApp.gtb b c = true.
Proof.
  unfold DashApp.gtb. intros [H | ->] Hc; [|exact Hc].
  exact (float_ltb_trans _ _ _ Hc H).
Qed.

(** X16.  The label does not go down when the gases go up: if neither SO2 nor H2S
    is lower in the second row (each is equal or less by the float [<]),
    the second label is at least the first under Safe < Warning < Danger. *)
Theorem mock_ai_monotone (r1 r2 : DashApp.Row) :
  (DashApp.SO2 r1 <? DashApp.SO2 r2)%float = true \/ DashApp.SO2 r1 = DashApp.SO2 r2 ->
  (DashApp.H2S r1 <? DashApp.H2S r2)%float = true \/ DashApp.H2S r1 = DashApp.H2S r2 ->
  exists l1 l2,
    risk_of_status (DashApp.mock_ai_classification r1) = Some l1 /\
    risk_of_status (DashApp.mock_ai_classification r2) = Some l2 /\
    risk_le l1 l2.
Proof.
  intros Hs Hh. unfold DashApp.mock_ai_classification.
  pose proof (gtb_mono _ _ 5%float Hs) as S5.
  pose proof (gtb_mono _ _ 10%float Hs) as S10.
  pose proof (gtb_mono _ _ 8%float Hh) as H8.
  pose proof (gtb_mono _ _ 15%float Hh) as H15.
  destruct (DashApp.gtb (DashApp.SO2 r1) 5); [rewrite S5 by reflexivity|];
    (destruct (DashApp.gtb (DashApp.SO2 r1) 10); [rewrite S10 by reflexivity|]);
    (destruct (DashApp.gtb (DashApp.H2S r1) 8); [rewrite H8 by reflexivity|]);
    (destruct (DashApp.gtb (DashApp.H2S r1) 15); [rewrite H15 by reflexivity|]);
    repeat match goal with
      | |- context [DashApp.gtb ?a ?b] => destruct (DashApp.gtb a b)
      end;
    eexists _, _; repeat split; unfold risk_le; simpl; lia.
Qed.

Lemma mock_ai_monotone_witness :
  exists l1 l2,
    risk_of_status (DashApp.mock_ai_classification (DashApp.mkRow 6 0 0 5 0)) = Some l1 /\
    risk_of_status (DashApp.mock_ai_classification (DashApp.mkRow 11 0 0 5 0)) = Some l2 /\
    risk_le l1 l2.
Proof.
  apply (mock_ai_monotone (DashApp.mkRow 6 0 0 5 0) (DashApp.mkRow 11 0 0 5 0)).
  - left. reflexivity.
  - right. reflexivity.
Defined.

(** X17.  [render_tabs] raises in one case only, the live tab on a frame without
    rows, and then [IndexError]; the live cards it returns otherwise show the
    SO2 of the last row and its label; a value that names no tab gives
    [None]. *)
Theorem render_tabs_behaviour (tab : string) (df : list DashApp.Row) :
  (forall e, DashApp.render_tabs tab df = raise e
             <-> tab = "tab2" /\ df = [] /\ e = IndexError) /\
  (forall so2 ai_status,
     DashApp.render_tabs tab df = ret (Some (DashApp.Live so2 ai_status))
     <-> tab = "tab2" /\
         exists r, last df = Some r /\ so2 = DashApp.SO2 r /\
                   ai_status = DashApp.mock_ai_classification r) /\
  (DashApp.render_tabs tab df = ret None
   <-> tab <> "tab1" /\ tab <> "tab2" /\ tab <> "tab3").
Proof.
  unfold DashApp.render_tabs.
  destruct (decide (tab = "tab1")) as [->|N1].
  { split; [intros e | split; [intros so2 st|]];
      (split; [discriminate | intuition congruence]). }
  destruct (decide (tab = "tab2")) as [->|N2].
  { destruct (last_nil_or df) as [-> | [r Hr]].
    - cbn. split; [intros e | split; [intros so2 st|]]; split; try discriminate.
      + intros E. inversion E. auto.
      + intros (_ & _ & ->). reflexivity.
      + intros (_ & r & E & _). discriminate.
      + intros (_ & E & _). now contradiction E.
    - rewrite (iloc_last_Some _ _ Hr), bind_ret.
      split; [intros e | split; [intros so2 st|]]; split; try discriminate.
      + intros (_ & -> & _). discriminate.
      + intros E. inversion E. eauto.
      + intros (_ & r' & Hr' & -> & ->). congruence.
      + intros (_ & E & _). now contradiction E. }
  destruct (decide (tab = "tab3")) as [->|N3].
  { split; [intros e | split; [intros so2 st|]];
      (split; [discriminate | intuition congruence]). }
  split; [intros e | split; [intros so2 st|]]; split; try discriminate;
    intuition congruence.
Qed.

(** ** [so_2_monitoring_dashboard.py] beyond the status *)

(** X19.  The two float dashboards on the same SO2 reading.  When H2S is not
    above 8, the status of [update_dashboard] is never below the label of
    [mock_ai_classification]; on a reading of exactly 5 or 10 it is one step
    above it. *)
Theorem so2_status_at_least_mock_label (row : DashApp.Row)
    (df : list So2Dashboard.Row) (latest : So2Dashboard.Row) :
  last df = Some latest ->
  So2Dashboard.SO2_ppm latest = DashApp.SO2 row ->
  DashApp.gtb (DashApp.H2S row) 8 = false ->
  (exists st l1 l2,
     So2Dashboard.update_dashboard df = ret st /\
     risk_of_status (DashApp.mock_ai_classification row) = Some l1 /\
     risk_of_status st = Some l2 /\
     risk_le l1 l2) /\
  (DashApp.SO2 row = 5%float ->
     DashApp.mock_ai_classification row = "Safe" /\
     So2Dashboard.update_dashboard df = ret "Warning") /\
  (DashApp.SO2 row = 10%float ->
     DashApp.mock_ai_classification row = "Warning" /\
     So2Dashboard.update_dashboard df = ret "Danger").
Proof.
  intros Hlast Hv H8.
  assert (H15 : DashApp.gtb (DashApp.H2S row) 15 = false).
  { destruct (DashApp.gtb (DashApp.H2S row) 15) eqn:E; [|reflexivity].
    rewrite <- H8. symmetry. unfold DashApp.gtb in *.
    now apply (float_ltb_trans 8 15). }
  rewrite (so2_update_dashboard_eq _ _ Hlast), Hv.
  unfold DashApp.mock_ai_classification, DashApp.gtb in *. rewrite H8, H15.
  split; [|split; intros ->; split; reflexivity].
  set (v := DashApp.SO2 row).
  pose proof (float_ltb_trans 5 v 5) as T55.
  pose proof (float_ltb_trans 10 v 5) as T105.
  pose proof (float_ltb_trans 10 v 10) as T1010.
  destruct (5 <? v)%float; destruct (10 <? v)%float;
    destruct (v <? 5)%float; destruct (v <? 10)%float;
    try (specialize (T55 eq_refl eq_refl); discriminate);
    try (specialize (T105 eq_refl eq_refl); discriminate);
    try (specialize (T1010 eq_refl eq_refl); discriminate);
    eexists _, _, _; repeat split; unfold risk_le; simpl; lia.
Qed.

Lemma so2_status_at_least_mock_label_witness :
  DashApp.mock_ai_classification (DashApp.mkRow 10 0 0 0 0) = "Warning" /\
  So2Dashboard.update_dashboard [So2Dashboard.mkRow 0 10 "Zone A"] = ret "Danger".
Proof.
  destruct (so2_status_at_least_mock_label (DashApp.mkRow 10 0 0 0 0)
              [So2Dashboard.mkRow 0 10 "Zone A"] (So2Dashboard.mkRow 0 10 "Zone A"))
    as (_ & _ & H); try reflexivity.
  now apply H.
Defined.

Lemma timestamps_in_range now :
  Forall (fun ts => now - 1430 <= ts <= now) (So2Dashboard.timestamps now).
Proof.
  unfold So2Dashboard.timestamps.
  apply Forall_reverse, Forall_fmap, Forall_forall.
  intros i Hi. apply elem_of_seq in Hi. cbn. lia.
Qed.

Lemma timestamps_length now : length (So2Dashboard.timestamps now) = 144%nat.
Proof.
  unfold So2Dashboard.timestamps.
  now rewrite length_reverse, length_fmap, length_seq.
Qed.

Lemma timestamps_last now : last (So2Dashboard.timestamps now) = Some now.
Proof.
  unfold So2Dashboard.timestamps. cbn [seq fmap list_fmap].
  rewrite reverse_cons, last_snoc. f_equal. lia.
Qed.

Lemma timestamps_sorted now : StronglySorted Z.lt (So2Dashboard.timestamps now).
Proof.
  unfold So2Dashboard.timestamps. generalize 0%nat, 144%nat. intros a k.
  revert a. induction k as [|k IH]; intros a; cbn [seq fmap list_fmap].
  - constructor.
  - rewrite reverse_cons. apply StronglySorted_app_2.
    + intros x y Hx Hy. apply elem_of_reverse, list_elem_of_fmap in Hx as (i & -> & Hi).
      apply elem_of_seq in Hi. apply list_elem_of_singleton in Hy as ->. lia.
    + apply IH.
    + repeat constructor.
Qed.

Lemma fmap_zip_with_l {A B C} (f : A -> B -> C) (g : C -> A) (l : list A) (k : list B) :
  (forall a b, g (f a b) = a) -> length l = length k -> g <$> zip_with f l k = l.
Proof.
  intros Hg. revert k. induction l as [|a l IH]; intros [|b k] Hlen;
    try discriminate; [reflexivity|].
  cbn. rewrite Hg. f_equal. apply IH. now inversion Hlen.
Qed.

Lemma generate_dummy_data_timestamps now so2 zones :
  So2Dashboard.timestamp <$> So2Dashboard.generate_dummy_data now so2 zones
  = So2Dashboard.timestamps now.
Proof.
  unfold So2Dashboard.generate_dummy_data. apply fmap_zip_with_l.
  - reflexivity.
  - now rewrite timestamps_length, length_seq.
Qed.

Lemma timestamp_max_Some df m :
  So2Dashboard.timestamp_max df = Some m
  <-> m ∈ So2Dashboard.timestamp <$> df
      /\ Forall (fun x => x <= m) (So2Dashboard.timestamp <$> df).
Proof. apply (column_max_Some (So2Dashboard.timestamp <$> df) m). Qed.

Lemma filter_all {A} (P : A -> Prop) `{!forall x, Decision (P x)} (l : list A) :
  Forall P l -> filter P l = l.
Proof.
  induction 1 as [|x l Hx _ IH]; [reflexivity|].
  now rewrite filter_cons_True, IH.
Qed.

(** X20.  The frame [generate_dummy_data] builds: 144 rows, ten minutes apart in
    strictly increasing time, the last one at [now].  They span 1430
    minutes, less than a day, so the last-24-hours filter of
    [update_dashboard] keeps every one of them. *)
Theorem generated_frame_is_recent (now : Z) (so2 : nat -> float)
    (zones : nat -> string) :
  let df := So2Dashboard.generate_dummy_data now so2 zones in
  length df = 144%nat /\
  StronglySorted Z.lt (So2Dashboard.timestamp <$> df) /\
  So2Dashboard.timestamp <$> last df = Some now /\
  So2Dashboard.timestamp_max df = Some now /\
  So2Dashboard.recent_df df = df.
Proof.
  cbn zeta.
  pose proof (generate_dummy_data_timestamps now so2 zones) as Hts.
  assert (Hmax : So2Dashboard.timestamp_max
                   (So2Dashboard.generate_dummy_data now so2 zones) = Some now).
  { apply timestamp_max_Some. rewrite Hts. split.
    - apply last_Some_elem_of, timestamps_last.
    - eapply Forall_impl; [apply timestamps_in_range|]. cbn. lia. }
  split; [|split; [|split; [|split]]].
  - rewrite <- (length_fmap So2Dashboard.timestamp), Hts. apply timestamps_length.
  - rewrite Hts. apply timestamps_sorted.
  - rewrite <- fmap_last, Hts. apply timestamps_last.
  - exact Hmax.
  - unfold So2Dashboard.recent_df. rewrite Hmax. apply filter_all.
    pose proof (timestamps_in_range now) as Hr. rewrite <- Hts in Hr.
    apply Forall_fmap in Hr. eapply Forall_impl; [exact Hr|]. cbn. lia.
Qed.

(** X21.  On any frame with rows the last-24-hours filter keeps rows: every row
    with the latest timestamp passes it, so the frame that is grouped by zone
    is never without rows; and it never keeps a row a day or more older than
    the latest. *)
Theorem recent_df_keeps_the_latest (df : list So2Dashboard.Row) :
  df <> [] ->
  exists latest,
    So2Dashboard.timestamp_max df = Some latest /\
    So2Dashboard.recent_df df <> [] /\
    (forall r, r ∈ So2Dashboard.recent_df df
               <-> r ∈ df /\ So2Dashboard.timestamp r > latest - 1440) /\
    (forall r, r ∈ df -> So2Dashboard.timestamp r = latest ->
               r ∈ So2Dashboard.recent_df df).
Proof.
  intros Hne.
  destruct (So2Dashboard.timestamp_max df) as [m|] eqn:Hmax;
    [|destruct df; [congruence | discriminate]].
  exists m. split; [reflexivity|].
  assert (Hiff : forall r, r ∈ So2Dashboard.recent_df df
                   <-> r ∈ df /\ So2Dashboard.timestamp r > m - 1440).
  { intros r. unfold So2Dashboard.recent_df. rewrite Hmax, list_elem_of_filter.
    tauto. }
  assert (Hkeep : forall r, r ∈ df -> So2Dashboard.timestamp r = m ->
                            r ∈ So2Dashboard.recent_df df).
  { intros r Hr E. apply Hiff. split; [exact Hr | lia]. }
  split; [|split; [exact Hiff | exact Hkeep]].
  apply timestamp_max_Some in Hmax as [Hm _].
  apply list_elem_of_fmap in Hm as (r & E & Hr).
  intros Hnil. specialize (Hkeep r Hr (eq_sym E)). rewrite Hnil in Hkeep.
  inversion Hkeep.
Qed.

Lemma recent_df_keeps_the_latest_witness :
  exists latest,
    So2Dashboard.timestamp_max
      [So2Dashboard.mkRow 0 1 "Zone A"; So2Dashboard.mkRow 2000 2 "Zone B"] = Some latest /\
    So2Dashboard.recent_df
      [So2Dashboard.mkRow 0 1 "Zone A"; So2Dashboard.mkRow 2000 2 "Zone B"] <> [].
Proof.
  destruct (recent_df_keeps_the_latest
              [So2Dashboard.mkRow 0 1 "Zone A"; So2Dashboard.mkRow 2000 2 "Zone B"])
    as (latest & H1 & H2 & _); [discriminate|].
  exists latest. split; [exact H1 | exact H2].
Defined.

(** ** The tab switcher of [test2.py] and [test3.py] *)

(** X15.  [switch_tabs] raises in one case only, the settings tab on a store
    without ["SO2"], and then [KeyError]; the history tab plots every row of
    the frame, one time and one reading per row; a value that names no tab
    gives [None]. *)
Theorem switch_tabs_behaviour (tab : string) (df : list Row)
    (limits : gmap string Limits) :
  (forall e, switch_tabs tab df limits = raise e
             <-> tab = "settings" /\ limits !! "SO2" = None /\ e = KeyError) /\
  (forall x y, switch_tabs tab df limits = ret (Some (HistoryCard x y))
               <-> tab = "history" /\ x = Time <$> df /\ y = SO2 <$> df) /\
  (switch_tabs tab df limits = ret None
   <-> tab <> "settings" /\ tab <> "live" /\ tab <> "history").
Proof.
  unfold switch_tabs.
  destruct (decide (tab = "settings")) as [->|N1].
  { destruct (limits !! "SO2") as [so2|] eqn:Hl.
    - rewrite (sensor_settings_tab_eq _ _ Hl), bind_ret.
      split; [intros e | split; [intros x y|]];
        (split; [discriminate | intuition congruence]).
    - rewrite (sensor_settings_tab_no_key _ Hl).
      split; [intros e | split; [intros x y|]]; split.
      + intros E. inversion E. auto.
      + intros (_ & _ & ->). reflexivity.
      + discriminate.
      + intros (E & _). discriminate.
      + discriminate.
      + intros (E & _). now contradiction E. }
  destruct (decide (tab = "live")) as [->|N2].
  { split; [intros e | split; [intros x y|]];
      (split; [discriminate | intuition congruence]). }
  destruct (decide (tab = "history")) as [->|N3].
  { split; [intros e | split; [intros x y|]]; split.
    - discriminate.
    - intros (E & _). discriminate.
    - intros E. inversion E. auto.
    - intros (_ & -> & ->). reflexivity.
    - discriminate.
    - intros (_ & _ & E). now contradiction E. }
  split; [intros e | split; [intros x y|]]; split; try discriminate;
    intuition congruence.
Qed.
